(** * Thermodynamic cycle calculators: Otto ([q1.py]) and Rankine ([q2.py])

    The two Python scripts evaluate closed-form cycle relations on floats.
    Each function is embedded twice.

    - The exact reading computes with exact numbers.  [Otto.otto_cycle]
      needs the power [**] with a fractional exponent and is over the real
      numbers [R], [x ** y] being [Rpower x y = exp (y * ln x)] for a
      positive base; [Rankine.approximate_rankine] uses only [+ - * /] on
      decimal constants and is over the rationals [Q], where it can be
      evaluated.  Python's ZeroDivisionError is part of this reading;
      rounding, overflow and underflow are not.
    - The binary64 reading, [Otto64] and [Rankine64], computes as Python
      does, with IEEE 754 binary64 numbers.  It shows what the code
      returns where rounding decides: next to a zero divisor, next to the
      bound of an inequality, between neighbouring inputs.

    A statement proved on the exact reading is meant of the code as well.
    An equation is then met by the code up to the rounding of its last
    digits; a strict inequality, or the claim that a call returns, carries
    hypotheses that keep the inputs clear of the places where rounding,
    overflow or underflow could decide otherwise. *)

From Stdlib Require Import Reals List ZArith QArith.
From Stdlib Require Import Psatz.
From Stdlib Require Import Floats.
Import ListNotations.

Set Warnings "-inexact-float".

(** ** Outcome of a Python call *)

Inductive result (A : Type) : Type :=
| Ok (a : A)                (* the call returns [a] *)
| ZeroDivisionError         (* the call raises ZeroDivisionError *)
| ComplexValue.             (* [x ** y] left the real numbers: negative
                               base with a fractional exponent *)

Arguments Ok {A} a.
Arguments ZeroDivisionError {A}.
Arguments ComplexValue {A}.

Definition bind {A B : Type} (m : result A) (k : A -> result B) : result B :=
  match m with
  | Ok a => k a
  | ZeroDivisionError => ZeroDivisionError
  | ComplexValue => ComplexValue
  end.

Declare Scope py_scope.
Delimit Scope py_scope with py.
Notation "x <- m ;; k" := (bind m (fun x => k))
  (at level 61, m at next level, right associativity) : py_scope.


(** ** Exact reading of [q1.py] *)

Module Otto.

Open Scope R_scope.
Open Scope py_scope.

(** [x / y] on floats. *)
Definition fdiv (x y : R) : result R :=
  if Req_dec_T y 0 then ZeroDivisionError else Ok (x / y).

(** [y] is a whole number. *)
Definition is_integer (y : R) : {y = IZR (Int_part y)} + {y <> IZR (Int_part y)} :=
  Req_dec_T y (IZR (Int_part y)).

(** [x ** y] on floats.  A positive base is [exp (y * ln x)]; a zero base
    gives 1, 0 or ZeroDivisionError by the sign of the exponent; a negative
    base is real only for a whole exponent.  With a fractional exponent
    Python goes on with a complex number: this reading stops there, with
    [ComplexValue].  It has no OverflowError and no underflow either:
    [Otto64.fpow] has the first. *)
Definition fpow (x y : R) : result R :=
  match total_order_T x 0 with
  | inright _ => Ok (Rpower x y)
  | inleft (right _) =>
      match total_order_T y 0 with
      | inleft (left _) => ZeroDivisionError
      | inleft (right _) => Ok 1
      | inright _ => Ok 0
      end
  | inleft (left _) =>
      if is_integer y then Ok (powerRZ x (Int_part y)) else ComplexValue
  end.

Definition upper_temp_lim : R := 2400.0.

(** Constants for air.  The module-level [gamma], [Cv] and [Cp] of lines
    9-11 are shadowed by the parameter and the locals of [otto_cycle] and
    are read nowhere else. *)
Definition R_air : R := 287.0.

(** The [states] dictionary. *)
Record States : Type := mkStates {
  T1 : R; P1 : R;
  T2 : R; P2 : R;
  T3 : R; P3 : R;
  T4 : R; P4 : R
}.

(** The dictionary returned by [otto_cycle]. *)
Record OttoResult : Type := mkOttoResult {
  states : States;
  q_in : R;
  q_out : R;
  w_net : R;
  eta : R;
  eta_theory : R;
  mep : R
}.

(** Line 36: [1 - 1 / (r ** (gamma - 1))]. *)
Definition eta_theory_expr (r gamma : R) : result R :=
  p <- fpow r (gamma - 1) ;;
  d <- fdiv 1 p ;;
  Ok (1 - d).

(** [otto_cycle(T1, P1, r, T3, gamma)], statement by statement. *)
Definition otto_cycle (T1 P1 r T3 gamma : R) : result OttoResult :=
  let R := R_air in
  Cv <- fdiv R (gamma - 1) ;;
  let Cp := Cv * gamma in
  (* 1 -> 2 (isentropic compression) *)
  p12 <- fpow r (gamma - 1) ;;
  let T2 := T1 * p12 in
  p12' <- fpow r gamma ;;
  let P2 := P1 * p12' in
  (* 2 -> 3 (constant-volume heat addition) *)
  t32 <- fdiv T3 T2 ;;
  let P3 := P2 * t32 in
  (* 3 -> 4 (isentropic expansion) *)
  p34 <- fpow r (1 - gamma) ;;
  let T4 := T3 * p34 in
  t43 <- fdiv T4 T3 ;;
  let P4 := P3 * t43 in
  (* Work & heat terms per kg *)
  let q_in := Cv * (T3 - T2) in
  let q_out := Cv * (T4 - T1) in
  let w_net := q_in - q_out in
  (* Efficiency and MEP *)
  qq <- fdiv q_out q_in ;;
  let eta := 1 - qq in
  eta_theory <- eta_theory_expr r gamma ;;
  v1 <- fdiv (R * T1) P1 ;;
  v2 <- fdiv v1 r ;;
  mep <- fdiv w_net (v1 - v2) ;;
  let states := mkStates T1 P1 T2 P2 T3 P3 T4 P4 in
  Ok (mkOttoResult states q_in q_out w_net eta eta_theory mep).

(** The call with every default: [otto_cycle()]. *)
Definition otto_cycle_default : result OttoResult :=
  otto_cycle 300.0 101325.0 6.0 upper_temp_lim 1.4.

(** *** Descriptions used in the proofs *)

(** The values [otto_cycle] returns when no division fails (positive [r]). *)
Definition otto_values (T1 P1 r T3 gamma : R) : OttoResult :=
  let Cv := R_air / (gamma - 1) in
  let T2 := T1 * Rpower r (gamma - 1) in
  let P2 := P1 * Rpower r gamma in
  let P3 := P2 * (T3 / T2) in
  let T4 := T3 * Rpower r (1 - gamma) in
  let P4 := P3 * (T4 / T3) in
  let q_in := Cv * (T3 - T2) in
  let q_out := Cv * (T4 - T1) in
  let v1 := R_air * T1 / P1 in
  mkOttoResult (mkStates T1 P1 T2 P2 T3 P3 T4 P4)
    q_in q_out (q_in - q_out) (1 - q_out / q_in)
    (1 - 1 / Rpower r (gamma - 1)) ((q_in - q_out) / (v1 - v1 / r)).

(** The inputs on which no division of [otto_cycle] has a zero divisor. *)
Definition regular (T1 P1 r T3 gamma : R) : Prop :=
  gamma <> 1 /\ T1 <> 0 /\ T3 <> 0 /\ T3 <> T1 * Rpower r (gamma - 1) /\
  P1 <> 0 /\ r <> 1.

End Otto.

(** ** Exact reading of [q2.py] *)

Module Rankine.

Open Scope Q_scope.
Open Scope py_scope.

Definition mass_flowrate : Q := 48.          (* kg/s *)
Definition P_low : Q := 50.                  (* kPa (condenser pressure) *)
Definition P_high_list : list Q := [3000; 4000; 5000].  (* kPa (boiler pressures) *)
Definition T_high : Q := 400 + 273.15.       (* degC -> K *)

Definition h_fg_100 : Q := 2257.
Definition cp_liquid : Q := 4.18.
Definition gamma : Q := 1.33.
Definition R : Q := 0.4615.

(** [x / y] on floats. *)
Definition fdiv (x y : Q) : result Q :=
  if Qeq_bool y 0 then ZeroDivisionError else Ok (x / y).

(** The tuple [(h1, h2, h3, h4)]. *)
Definition Enthalpies : Type := (Q * Q * Q * Q)%type.

(** [approximate_rankine(P_high_kPa)], returning
    [(efficiency, net_power, (h1, h2, h3, h4))]. *)
Definition approximate_rankine (P_high_kPa : Q) : result (Q * Q * Enthalpies) :=
  (* 1 -> 2: Pump (liquid water compressed) *)
  let h1 := 340 in
  let v1 := 0.001 in
  let pump_work := v1 * (P_high_kPa - P_low) in
  let h2 := h1 + pump_work in
  (* 2 -> 3: Boiler (liquid to superheated vapor) *)
  let h_g := 2800 + 0.1 * (P_high_kPa - 3000) / 1000 * 100 in
  let h3 := h_g + cp_liquid * (T_high - 473.15) / 1000 * 100 in
  (* 3 -> 4: Turbine (isentropic expansion) *)
  let h4 := h3 - 0.25 * (h3 - h1) in
  (* Efficiency and work *)
  let turbine_work := h3 - h4 in
  let pump_work := h2 - h1 in
  let net_work := turbine_work - pump_work in
  let heat_added := h3 - h2 in
  efficiency <- fdiv net_work heat_added ;;
  (* Net power (kW) *)
  let net_power := net_work * mass_flowrate in
  Ok (efficiency, net_power, (h1, h2, h3, h4)).

(** The loop of lines 44-50: every boiler pressure is evaluated in turn and
    its efficiency and power are appended to the two lists. *)
Fixpoint sweep (pressures efficiencies powers : list Q) : result (list Q * list Q) :=
  match pressures with
  | [] => Ok (efficiencies, powers)
  | P_high :: rest =>
      res <- approximate_rankine P_high ;;
      let '(eff, power, _) := res in
      sweep rest (efficiencies ++ [eff]) (powers ++ [power])
  end.

(** The list [efficiencies] once the loop is over. *)
Definition efficiencies : result (list Q) :=
  lists <- sweep P_high_list [] [] ;;
  Ok (fst lists).

(** Each entry is strictly below the next one. *)
Fixpoint increasing (l : list Q) : Prop :=
  match l with
  | x :: (y :: _) as tl => x < y /\ increasing tl
  | _ => True
  end.

(** Each entry is strictly above the next one. *)
Fixpoint decreasing (l : list Q) : Prop :=
  match l with
  | x :: (y :: _) as tl => y < x /\ decreasing tl
  | _ => True
  end.

(** Each entry is at least 1 (kPa) above the one before. *)
Fixpoint spaced (l : list Q) : Prop :=
  match l with
  | x :: (y :: _) as tl => x + 1 <= y /\ spaced tl
  | _ => True
  end.

(** *** Descriptions used in the proofs *)

(** Net work and heat added as the source computes them. *)
Definition net_work_of (P : Q) : Q :=
  let h1 := 340 in
  let h2 := h1 + 0.001 * (P - P_low) in
  let h3 := 2800 + 0.1 * (P - 3000) / 1000 * 100
            + cp_liquid * (T_high - 473.15) / 1000 * 100 in
  let h4 := h3 - 0.25 * (h3 - h1) in
  (h3 - h4) - (h2 - h1).

Definition heat_added_of (P : Q) : Q :=
  let h1 := 340 in
  let h2 := h1 + 0.001 * (P - P_low) in
  let h3 := 2800 + 0.1 * (P - 3000) / 1000 * 100
            + cp_liquid * (T_high - 473.15) / 1000 * 100 in
  h3 - h2.

End Rankine.

(** ** Binary64 reading of [q2.py]

    The same function on IEEE 754 binary64 numbers, the arithmetic Python's
    [float] performs: every [+ - * /] is rounded to nearest-even, decimal
    literals denote the nearest binary64 number, and only a division whose
    divisor is (plus or minus) zero raises.  An [int] argument enters the
    arithmetic through its exact conversion, so [approximate_rankine 3000]
    stands for the call on [3000] as well as on [3000.0]. *)

Module Rankine64.

Open Scope float_scope.
Open Scope py_scope.

Definition mass_flowrate : float := 48.          (* kg/s *)
Definition P_low : float := 50.                  (* kPa (condenser pressure) *)
Definition P_high_list : list float := [3000; 4000; 5000].
Definition T_high : float := 400 + 273.15.       (* degC -> K *)
Definition cp_liquid : float := 4.18.

(** [x / y] on floats. *)
Definition fdiv (x y : float) : result float :=
  if y =? 0 then ZeroDivisionError else Ok (x / y).

Definition Enthalpies : Type := (float * float * float * float)%type.

(** [approximate_rankine(P_high_kPa)] in binary64. *)
Definition approximate_rankine (P_high_kPa : float)
  : result (float * float * Enthalpies) :=
  (* 1 -> 2: Pump (liquid water compressed) *)
  let h1 := 340 in
  let v1 := 0.001 in
  let pump_work := v1 * (P_high_kPa - P_low) in
  let h2 := h1 + pump_work in
  (* 2 -> 3: Boiler (liquid to superheated vapor) *)
  let h_g := 2800 + 0.1 * (P_high_kPa - 3000) / 1000 * 100 in
  let h3 := h_g + cp_liquid * (T_high - 473.15) / 1000 * 100 in
  (* 3 -> 4: Turbine (isentropic expansion) *)
  let h4 := h3 - 0.25 * (h3 - h1) in
  (* Efficiency and work *)
  let turbine_work := h3 - h4 in
  let pump_work := h2 - h1 in
  let net_work := turbine_work - pump_work in
  let heat_added := h3 - h2 in
  efficiency <- fdiv net_work heat_added ;;
  (* Net power (kW) *)
  let net_power := net_work * mass_flowrate in
  Ok (efficiency, net_power, (h1, h2, h3, h4)).

(** The efficiency a call returns lies strictly between 0 and 0.25. *)
Definition efficiency_in_bounds (P_high_kPa : float) : bool :=
  match approximate_rankine P_high_kPa with
  | Ok (efficiency, _, _) => (0 <? efficiency) && (efficiency <? 0.25)
  | _ => false
  end.

(** The whole-number pressures [first], [first + 1], ..., [count] of them. *)
Fixpoint whole_pressures (first : float) (count : nat) : list float :=
  match count with
  | O => []
  | S n => first :: whole_pressures (first + 1) n
  end.

End Rankine64.

(** ** Binary64 reading of [q1.py]

    [otto_cycle] on binary64 numbers.  The power [x ** y] of two floats is
    CPython's [float_pow]: [x ** 0.0] is [1.0] and [1.0 ** y] is [1.0]
    without any call, and a finite positive base other than 1 goes to the C
    library's [pow], whose infinite result is reported as OverflowError (an
    underflow to zero is returned as it is).  The C library is not part of
    the repository: [pow] is a parameter of the model.  A base that is
    zero, negative or not finite is outside this reading (the exact
    reading [Otto.fpow] has the zero base). *)

Module Otto64.

Open Scope float_scope.

Inductive outcome (A : Type) : Type :=
| Return (a : A)              (* the call returns [a] *)
| RaiseZeroDivisionError
| RaiseOverflowError
| Unmodelled.                 (* base of [**] zero, negative or not finite *)

Arguments Return {A} a.
Arguments RaiseZeroDivisionError {A}.
Arguments RaiseOverflowError {A}.
Arguments Unmodelled {A}.

Definition bind {A B : Type} (m : outcome A) (k : A -> outcome B) : outcome B :=
  match m with
  | Return a => k a
  | RaiseZeroDivisionError => RaiseZeroDivisionError
  | RaiseOverflowError => RaiseOverflowError
  | Unmodelled => Unmodelled
  end.

Declare Scope py64_scope.
Delimit Scope py64_scope with py64.
Notation "x <- m ;; k" := (bind m (fun x => k))
  (at level 61, m at next level, right associativity) : py64_scope.
Open Scope py64_scope.

(** The [states] dictionary. *)
Record States : Type := mkStates {
  T1 : float; P1 : float;
  T2 : float; P2 : float;
  T3 : float; P3 : float;
  T4 : float; P4 : float
}.

(** The dictionary returned by [otto_cycle]. *)
Record OttoResult : Type := mkOttoResult {
  states : States;
  q_in : float;
  q_out : float;
  w_net : float;
  eta : float;
  eta_theory : float;
  mep : float
}.

Definition upper_temp_lim : float := 2400.0.
Definition R_air : float := 287.0.

(** [x / y] on floats. *)
Definition fdiv (x y : float) : outcome float :=
  if y =? 0 then RaiseZeroDivisionError else Return (x / y).

Section LibmPow.

(** The C library's [pow]. *)
Variable libm_pow : float -> float -> float.

(** [x ** y] on floats. *)
Definition fpow (x y : float) : outcome float :=
  if y =? 0 then Return 1
  else if x =? 1 then Return 1
  else if is_finite x && is_finite y && (0 <? x) then
    let ix := libm_pow x y in
    if is_infinity ix then RaiseOverflowError else Return ix
  else Unmodelled.

(** Line 36: [1 - 1 / (r ** (gamma - 1))]. *)
Definition eta_theory_expr (r gamma : float) : outcome float :=
  p <- fpow r (gamma - 1) ;;
  d <- fdiv 1 p ;;
  Return (1 - d).

(** [otto_cycle(T1, P1, r, T3, gamma)], statement by statement. *)
Definition otto_cycle (T1 P1 r T3 gamma : float) : outcome OttoResult :=
  let R := R_air in
  Cv <- fdiv R (gamma - 1) ;;
  let Cp := Cv * gamma in
  (* 1 -> 2 (isentropic compression) *)
  p12 <- fpow r (gamma - 1) ;;
  let T2 := T1 * p12 in
  p12' <- fpow r gamma ;;
  let P2 := P1 * p12' in
  (* 2 -> 3 (constant-volume heat addition) *)
  t32 <- fdiv T3 T2 ;;
  let P3 := P2 * t32 in
  (* 3 -> 4 (isentropic expansion) *)
  p34 <- fpow r (1 - gamma) ;;
  let T4 := T3 * p34 in
  t43 <- fdiv T4 T3 ;;
  let P4 := P3 * t43 in
  (* Work & heat terms per kg *)
  let q_in := Cv * (T3 - T2) in
  let q_out := Cv * (T4 - T1) in
  let w_net := q_in - q_out in
  (* Efficiency and MEP *)
  qq <- fdiv q_out q_in ;;
  let eta := 1 - qq in
  eta_theory <- eta_theory_expr r gamma ;;
  v1 <- fdiv (R * T1) P1 ;;
  v2 <- fdiv v1 r ;;
  mep <- fdiv w_net (v1 - v2) ;;
  let states := mkStates T1 P1 T2 P2 T3 P3 T4 P4 in
  Return (mkOttoResult states q_in q_out w_net eta eta_theory mep).

End LibmPow.

(** The values the C library's [pow] (glibc, x86-64) returns at the
    arguments of the sample calls: base 6.0 and its successor
    6.000000000000001, exponents [1.4 - 1], [1.4] and [1 - 1.4].  Elsewhere
    the table has no entry ([nan]). *)
Definition libm_pow_samples (x y : float) : float :=
  if (x =? 6) && (y =? 0.3999999999999999) then 2.047672511079219
  else if (x =? 6) && (y =? 1.4) then 12.286035066475314
  else if (x =? 6) && (y =? -0.3999999999999999) then 0.488359341930587
  else if (x =? 6.000000000000001) && (y =? 0.3999999999999999) then 2.047672511079219
  else if (x =? 6.000000000000001) && (y =? 1.4) then 12.286035066475316
  else if (x =? 6.000000000000001) && (y =? -0.3999999999999999) then 0.488359341930587
  else nan.

End Otto64.

(** ** Facts about the Otto embedding *)

Module OttoFacts.
Import Otto.

Open Scope R_scope.

Lemma fdiv_ok (x y : R) : y <> 0 -> fdiv x y = Ok (x / y).
Proof.
  intros Hy. unfold fdiv. destruct (Req_dec_T y 0) as [E | _]; [contradiction | reflexivity].
Qed.

Lemma fdiv_zero (x y : R) : y = 0 -> fdiv x y = ZeroDivisionError.
Proof.
  intros Hy. unfold fdiv. destruct (Req_dec_T y 0) as [_ | N]; [reflexivity | contradiction].
Qed.

Lemma fpow_pos (x y : R) : 0 < x -> fpow x y = Ok (Rpower x y).
Proof.
  intros Hx. unfold fpow.
  destruct (total_order_T x 0) as [[Hlt | Heq] | Hgt]; [exfalso; lra | exfalso; lra | reflexivity].
Qed.

Lemma R_air_value : R_air = 287.
Proof. unfold R_air. lra. Qed.

Lemma Rpower_gt_0 (x y : R) : 0 < Rpower x y.
Proof. unfold Rpower. apply exp_pos. Qed.

Lemma Rpower_neq_0 (x y : R) : Rpower x y <> 0.
Proof. pose proof (Rpower_gt_0 x y). lra. Qed.

(** [r ** (1 - gamma)] is the inverse of [r ** (gamma - 1)]. *)
Lemma Rpower_one_minus (r gamma : R) :
  Rpower r (1 - gamma) = / Rpower r (gamma - 1).
Proof.
  replace (1 - gamma) with (- (gamma - 1)) by ring.
  apply Rpower_Ropp.
Qed.

Lemma Rpower_split (r gamma : R) :
  0 < r -> Rpower r gamma = r * Rpower r (gamma - 1).
Proof.
  intros Hr.
  rewrite <- (Rpower_1 r Hr) at 2.
  rewrite <- Rpower_plus. f_equal. ring.
Qed.

Lemma v_diff_nonzero (T1 P1 r : R) :
  T1 <> 0 -> P1 <> 0 -> 0 < r -> r <> 1 ->
  R_air * T1 / P1 - R_air * T1 / P1 / r <> 0.
Proof.
  intros HT HP Hr Hr1. rewrite R_air_value.
  replace (287 * T1 / P1 - 287 * T1 / P1 / r)
    with (287 * T1 * (r - 1) / (P1 * r)) by (field; lra).
  unfold Rdiv. apply Rmult_integral_contrapositive_currified.
  - apply Rmult_integral_contrapositive_currified.
    + apply Rmult_integral_contrapositive_currified; lra.
    + lra.
  - apply Rinv_neq_0_compat. apply Rmult_integral_contrapositive_currified; lra.
Qed.

Lemma q_in_nonzero (T2 T3 gamma : R) :
  gamma <> 1 -> T3 <> T2 -> R_air / (gamma - 1) * (T3 - T2) <> 0.
Proof.
  intros Hg HT. rewrite R_air_value. unfold Rdiv.
  apply Rmult_integral_contrapositive_currified.
  - apply Rmult_integral_contrapositive_currified; [lra |].
    apply Rinv_neq_0_compat. lra.
  - lra.
Qed.

(** On a regular input with [r > 0] the call returns [otto_values]. *)
Lemma otto_cycle_ok (T1 P1 r T3 gamma : R) :
  0 < r -> regular T1 P1 r T3 gamma ->
  otto_cycle T1 P1 r T3 gamma = Ok (otto_values T1 P1 r T3 gamma).
Proof.
  intros Hr (Hg & HT1 & HT3 & HT32 & HP1 & Hr1).
  unfold otto_cycle, eta_theory_expr.
  rewrite !(fpow_pos r) by exact Hr.
  cbn [bind].
  rewrite (fdiv_ok R_air (gamma - 1)) by lra. cbn [bind].
  rewrite (fdiv_ok T3) by
    (apply Rmult_integral_contrapositive_currified; [exact HT1 | apply Rpower_neq_0]).
  cbn [bind].
  rewrite (fdiv_ok _ T3) by exact HT3. cbn [bind].
  rewrite (fdiv_ok _ (R_air / (gamma - 1) * (T3 - T1 * Rpower r (gamma - 1))))
    by (apply q_in_nonzero; assumption).
  cbn [bind].
  rewrite (fdiv_ok 1) by apply Rpower_neq_0. cbn [bind].
  rewrite (fdiv_ok _ P1) by exact HP1. cbn [bind].
  rewrite (fdiv_ok _ r) by lra. cbn [bind].
  rewrite fdiv_ok by (apply v_diff_nonzero; assumption).
  cbn [bind]. reflexivity.
Qed.


(** A call that returns computed [eta_theory] by line 36, whatever [r]. *)
Lemma otto_cycle_eta_theory (T1 P1 r T3 gamma : R) (res : OttoResult) :
  otto_cycle T1 P1 r T3 gamma = Ok res ->
  eta_theory_expr r gamma = Ok (eta_theory res).
Proof.
  unfold otto_cycle.
  repeat match goal with
         | |- bind ?m _ = Ok _ -> _ =>
             destruct m; cbn [bind]; try discriminate
         end.
  intros H. injection H as <-. reflexivity.
Qed.

Lemma Rpower_base_1 (y : R) : Rpower 1 y = 1.
Proof. unfold Rpower. rewrite ln_1, Rmult_0_r. apply exp_0. Qed.

(** Below [gamma = 2] compression heats the gas by less than the factor [r]. *)
Lemma T2_below (T1 r gamma : R) :
  0 < T1 -> 1 < r -> gamma < 2 -> T1 * Rpower r (gamma - 1) < T1 * r.
Proof.
  intros HT Hr Hg. apply Rmult_lt_compat_l; [exact HT |].
  rewrite <- (Rpower_1 r) at 2 by lra.
  apply Rpower_lt; lra.
Qed.

(** [6 ** 0.4] is the fifth root of 36. *)
Lemma pow_6_04_fifth : Rpower 6 (2 / 5) ^ 5 = 36.
Proof.
  rewrite <- Rpower_pow by apply Rpower_gt_0.
  rewrite Rpower_mult.
  replace (2 / 5 * INR 5) with (INR 2) by (simpl; field).
  rewrite Rpower_pow by lra. simpl. ring.
Qed.

Lemma pow_6_04_bounds : 2.04767 < Rpower 6 (2 / 5) < 2.04768.
Proof.
  pose proof pow_6_04_fifth as H5.
  pose proof (Rpower_gt_0 6 (2 / 5)) as Hpos.
  split.
  - destruct (Rlt_le_dec 2.04767 (Rpower 6 (2 / 5))) as [L | G]; [exact L |].
    exfalso.
    assert (Hle : Rpower 6 (2 / 5) ^ 5 <= 2.04767 ^ 5) by (apply pow_incr; lra).
    assert (Hc : 2.04767 ^ 5 < 36) by lra.
    lra.
  - destruct (Rlt_le_dec (Rpower 6 (2 / 5)) 2.04768) as [L | G]; [exact L |].
    exfalso.
    assert (Hle : 2.04768 ^ 5 <= Rpower 6 (2 / 5) ^ 5) by (apply pow_incr; lra).
    assert (Hc : 36 < 2.04768 ^ 5) by lra.
    lra.
Qed.

Lemma otto_cycle_default_eq :
  otto_cycle_default = otto_cycle 300 101325 6 2400 (7 / 5).
Proof.
  unfold otto_cycle_default, upper_temp_lim. f_equal; lra.
Qed.

(** The default inputs, and the sweep value [r = 8], are regular. *)
Lemma regular_default (r : R) :
  1 < r <= 8 -> regular 300 101325 r 2400 (7 / 5).
Proof.
  intros [Hr1 Hr8]. unfold regular.
  assert (Hb : 300 * Rpower r (7 / 5 - 1) < 300 * r) by (apply T2_below; lra).
  repeat split; lra.
Qed.

(** [r ** 0.4] is the fifth root of [r^2]. *)
Lemma Rpower_two_fifths_pow (r : R) : 0 < r -> Rpower r (2 / 5) ^ 5 = r ^ 2.
Proof.
  intros Hr.
  rewrite <- Rpower_pow by apply Rpower_gt_0.
  rewrite Rpower_mult.
  replace (2 / 5 * INR 5) with (INR 2) by (simpl; field).
  apply Rpower_pow. exact Hr.
Qed.

(** Bounds on [r ** 0.4] from bounds on [r^2]. *)
Lemma Rpower_two_fifths_between (r lo hi : R) :
  0 < r -> 0 <= lo -> 0 <= hi -> lo ^ 5 < r ^ 2 -> r ^ 2 < hi ^ 5 ->
  lo < Rpower r (2 / 5) < hi.
Proof.
  intros Hr Hlo Hhi Hl Hh.
  pose proof (Rpower_two_fifths_pow r Hr) as H5.
  pose proof (Rpower_gt_0 r (2 / 5)) as Hpos.
  split.
  - destruct (Rlt_le_dec lo (Rpower r (2 / 5))) as [L | G]; [exact L | exfalso].
    assert (Hle : Rpower r (2 / 5) ^ 5 <= lo ^ 5) by (apply pow_incr; lra).
    lra.
  - destruct (Rlt_le_dec (Rpower r (2 / 5)) hi) as [L | G]; [exact L | exfalso].
    assert (Hle : hi ^ 5 <= Rpower r (2 / 5) ^ 5) by (apply pow_incr; lra).
    lra.
Qed.

(** On the plotted range 3 <= r <= 12 the compression factor r^0.4 lies
    between 1.55 and 2.71. *)
Lemma Rpower_two_fifths_sweep (r : R) :
  3 <= r <= 12 -> 1.55 < Rpower r (2 / 5) < 2.71.
Proof.
  intros [H3 H12].
  assert (Hsq : 9 <= r ^ 2 <= 144) by (simpl; nra).
  apply Rpower_two_fifths_between; lra.
Qed.

(** The inputs the formulas are meant for. *)
Lemma valid_regular (T1 P1 r T3 gamma : R) :
  1 < r -> 1 < gamma -> 0 < T1 -> 0 < P1 -> T1 * Rpower r (gamma - 1) < T3 ->
  regular T1 P1 r T3 gamma.
Proof.
  intros Hr Hg HT1 HP1 HT3.
  pose proof (Rpower_gt_0 r (gamma - 1)) as Hp.
  assert (0 < T1 * Rpower r (gamma - 1)) by (apply Rmult_lt_0_compat; assumption).
  unfold regular. repeat split; lra.
Qed.

(** The calls of the script: every argument but [r] at its default. *)
Lemma sweep_call_eq (r : R) :
  otto_cycle 300.0 101325.0 r upper_temp_lim 1.4 =
  otto_cycle 300 101325 r 2400 (7 / 5).
Proof.
  unfold upper_temp_lim. f_equal; lra.
Qed.

Lemma sweep_regular (r : R) :
  3 <= r <= 12 -> regular 300 101325 r 2400 (7 / 5).
Proof.
  intros Hr. pose proof (Rpower_two_fifths_sweep r Hr) as [_ Hhi].
  apply valid_regular; try lra.
  replace (7 / 5 - 1) with (2 / 5) by lra. lra.
Qed.

Lemma sweep_call_ok (r : R) :
  3 <= r <= 12 ->
  otto_cycle 300.0 101325.0 r upper_temp_lim 1.4 =
  Ok (otto_values 300 101325 r 2400 (7 / 5)).
Proof.
  intros Hr. rewrite sweep_call_eq.
  apply otto_cycle_ok; [lra | apply sweep_regular; exact Hr].
Qed.

(** The closed form of eta on a regular input. *)
Lemma eta_closed (T1 P1 r T3 gamma : R) :
  regular T1 P1 r T3 gamma ->
  eta (otto_values T1 P1 r T3 gamma) = 1 - / Rpower r (gamma - 1).
Proof.
  intros (Hg & HT1 & HT3 & HT32 & HP1 & Hr1).
  unfold otto_values. cbn [eta].
  rewrite Rpower_one_minus, R_air_value.
  pose proof (Rpower_gt_0 r (gamma - 1)) as Hp.
  set (p := Rpower r (gamma - 1)) in *.
  field. repeat split; lra.
Qed.



End OttoFacts.

(** ** Facts about the Rankine embedding *)

Module RankineFacts.
Import Rankine.

Open Scope Q_scope.

Lemma fdiv_ok_Q (x y : Q) : ~ y == 0 -> fdiv x y = Ok (x / y).
Proof.
  intros Hy. unfold fdiv.
  destruct (Qeq_bool y 0) eqn:E; [| reflexivity].
  apply Qeq_bool_eq in E. contradiction.
Qed.

Lemma net_work_closed (P : Q) : net_work_of P == 628.45 + 0.0015 * P.
Proof.
  unfold net_work_of, P_low, cp_liquid, T_high. cbv zeta. field.
Qed.

Lemma heat_added_closed (P : Q) : heat_added_of P == 2513.65 + 0.009 * P.
Proof.
  unfold heat_added_of, P_low, cp_liquid, T_high. cbv zeta. field.
Qed.

(** At 3000 kPa: h1 = 340, pump work 0.001 * 2950 = 2.95, h2 = 342.95, and
    efficiency and net power are positive. *)
Example approximate_rankine_3000 :
  exists efficiency net_power h1 h2 h3 h4,
    approximate_rankine 3000 = Ok (efficiency, net_power, (h1, h2, h3, h4)) /\
    h1 == 340 /\ h2 - h1 == 2.95 /\ h2 == 342.95 /\
    0 < efficiency /\ 0 < net_power.
Proof.
  do 6 eexists. split; [vm_compute; reflexivity |].
  repeat split.
Qed.

Lemma approximate_rankine_ok (P : Q) :
  ~ heat_added_of P == 0 ->
  exists st,
    approximate_rankine P =
    Ok (net_work_of P / heat_added_of P, net_work_of P * mass_flowrate, st).
Proof.
  intros H. unfold approximate_rankine. cbv zeta.
  fold (heat_added_of P) in *.
  rewrite fdiv_ok_Q.
  - eexists. reflexivity.
  - exact H.
Qed.

(** What a returned tuple holds. *)
Lemma approximate_rankine_inv (P e w h1 h2 h3 h4 : Q) :
  approximate_rankine P = Ok (e, w, (h1, h2, h3, h4)) ->
  ~ heat_added_of P == 0 /\
  e = net_work_of P / heat_added_of P /\
  w = net_work_of P * mass_flowrate /\
  h1 == 340 /\ h2 == 339.95 + 0.001 * P /\
  h3 == 2853.6 + 0.01 * P /\ h4 == 2225.2 + 0.0075 * P.
Proof.
  unfold approximate_rankine. cbv zeta.
  fold (heat_added_of P). fold (net_work_of P).
  unfold fdiv. destruct (Qeq_bool (heat_added_of P) 0) eqn:E; cbn [bind].
  - discriminate.
  - intros H. injection H as <- <- <- <- <- <-.
    split.
    + intros Hz. apply Qeq_eq_bool in Hz. rewrite Hz in E. discriminate E.
    + unfold P_low, cp_liquid, T_high.
      repeat split; try reflexivity; field.
Qed.

Lemma heat_added_pos (P : Q) : 0 <= P -> 0 < heat_added_of P.
Proof. intros HP. rewrite heat_added_closed. lra. Qed.

Lemma net_work_pos (P : Q) : 0 <= P -> 0 < net_work_of P.
Proof. intros HP. rewrite net_work_closed. lra. Qed.

(** Comparing two quotients with positive divisors. *)
Lemma Qdiv_lt_cross (a b c d : Q) :
  0 < b -> 0 < d -> a * d < c * b -> a / b < c / d.
Proof.
  intros Hb Hd H.
  apply Qlt_shift_div_r; [exact Hb |].
  assert (E : c / d * b == c * b / d) by (field; lra).
  rewrite E. apply Qlt_shift_div_l; assumption.
Qed.

(** The efficiency falls as the boiler pressure rises. *)
Lemma efficiency_antitone (Pa Pb : Q) :
  0 <= Pa -> Pa < Pb ->
  net_work_of Pb / heat_added_of Pb < net_work_of Pa / heat_added_of Pa.
Proof.
  intros Ha Hab.
  apply Qdiv_lt_cross; try (apply heat_added_pos; lra).
  rewrite !net_work_closed, !heat_added_closed.
  (* (628.45 + 0.0015 Pb)(2513.65 + 0.009 Pa) < (628.45 + 0.0015 Pa)(2513.65 + 0.009 Pb) *)
  assert (E : (628.45 + 0.0015 * Pa) * (2513.65 + 0.009 * Pb)
              - (628.45 + 0.0015 * Pb) * (2513.65 + 0.009 * Pa)
              == 1.885575 * (Pb - Pa)) by ring.
  lra.
Qed.

End RankineFacts.

(** ** Properties of [otto_cycle] *)

Module OttoSpec.
Import Otto OttoFacts.

Open Scope R_scope.







(** C8.  eta_theory depends on r and gamma only: two calls with the same r
    and gamma that return, return the same eta_theory, whatever T1, P1 and
    T3 each was given. *)
Theorem otto_eta_theory_noninterference
    (T1 P1 T3 T1' P1' T3' r gamma : R) (res res' : OttoResult) :
  otto_cycle T1 P1 r T3 gamma = Ok res ->
  otto_cycle T1' P1' r T3' gamma = Ok res' ->
  eta_theory res = eta_theory res'.
Proof.
  intros H H'.
  apply otto_cycle_eta_theory in H. apply otto_cycle_eta_theory in H'.
  rewrite H in H'. injection H' as E. exact E.
Qed.

Lemma otto_eta_theory_noninterference_witness :
  (otto_cycle 300 101325 6 2400 (7 / 5) =
     Ok (otto_values 300 101325 6 2400 (7 / 5)) /\
   otto_cycle 350 200000 6 2500 (7 / 5) =
     Ok (otto_values 350 200000 6 2500 (7 / 5))) /\
  eta_theory (otto_values 300 101325 6 2400 (7 / 5)) =
  eta_theory (otto_values 350 200000 6 2500 (7 / 5)).
Proof.
  assert (Ha : otto_cycle 300 101325 6 2400 (7 / 5) =
               Ok (otto_values 300 101325 6 2400 (7 / 5)))
    by (apply otto_cycle_ok; [lra | apply regular_default; lra]).
  assert (Hb : otto_cycle 350 200000 6 2500 (7 / 5) =
               Ok (otto_values 350 200000 6 2500 (7 / 5))).
  { apply otto_cycle_ok; [lra |].
    assert (Hlt : 350 * Rpower 6 (7 / 5 - 1) < 350 * 6) by (apply T2_below; lra).
    unfold regular. repeat split; lra. }
  split; [split; assumption |].
  apply (otto_eta_theory_noninterference
           300 101325 2400 350 200000 2500 6 (7 / 5)); assumption.
Defined.



(** Where the default call lands: T2 and eta_theory to five digits. *)
Lemma otto_default_numbers :
  exists res, otto_cycle_default = Ok res /\
    614.301 < T2 (states res) < 614.304 /\
    eta_theory res = 1 - Rpower 6 (- 0.4) /\
    0.51164 < eta_theory res < 0.51165.
Proof.
  exists (otto_values 300 101325 6 2400 (7 / 5)). split.
  - rewrite otto_cycle_default_eq.
    apply otto_cycle_ok; [lra | apply regular_default; lra].
  - unfold otto_values. cbn [states T2 eta_theory].
    replace (7 / 5 - 1) with (2 / 5) by lra.
    replace (- 0.4) with (- (2 / 5)) by lra.
    rewrite Rpower_Ropp.
    pose proof pow_6_04_bounds as [Hlo Hhi].
    set (x := Rpower 6 (2 / 5)) in *.
    assert (Hxy : x * / x = 1) by (apply Rinv_r; lra).
    unfold Rdiv. set (y := / x) in *.
    repeat split; lra || nra.
Qed.

(** C3, as written, fails: the default call does not give T2 within half a
    kelvin of 614.95. *)
Lemma otto_default_T2_is_not_614_95 :
  ~ (exists res, otto_cycle_default = Ok res /\
       Rabs (T2 (states res) - 614.95) <= 0.5 /\
       eta_theory res = 1 - Rpower 6 (- 0.4) /\
       Rabs (eta_theory res - 0.5116) <= 0.00005).
Proof.
  intros (res & Hres & HT2 & _).
  destruct otto_default_numbers as (res' & Hres' & [_ Hhi] & _).
  rewrite Hres in Hres'. injection Hres' as <-.
  unfold Rabs in HT2.
  destruct (Rcase_abs (T2 (states res) - 614.95)) as [Hneg | Hpos]; lra.
Qed.

(** C3, amended.  The default call (T1 = 300, P1 = 101325, r = 6, T3 = 2400,
    gamma = 1.4) returns T2 = 614.30 to two decimals and
    eta_theory = 1 - 6^(-0.4), which is 0.5116 to four decimals. *)
Theorem otto_default_values :
  exists res, otto_cycle_default = Ok res /\
    Rabs (T2 (states res) - 614.30) <= 0.005 /\
    eta_theory res = 1 - Rpower 6 (- 0.4) /\
    Rabs (eta_theory res - 0.5116) <= 0.00005.
Proof.
  destruct otto_default_numbers as (res & Hres & [Hlo Hhi] & He & [Helo Hehi]).
  exists res. repeat split; try assumption.
  - apply Rabs_le. lra.
  - apply Rabs_le. lra.
Qed.

(** C4.  At r = 1 the expression of eta_theory, 1 - 1 / r^(gamma-1),
    evaluates to 0 and raises no division error, whatever gamma is:
    r^(gamma-1) is 1. *)
Theorem otto_eta_theory_at_r_1 (gamma : R) :
  eta_theory_expr 1 gamma = Ok 0.
Proof.
  unfold eta_theory_expr.
  rewrite fpow_pos by lra. rewrite Rpower_base_1. cbn [bind].
  rewrite fdiv_ok by lra. cbn [bind]. f_equal. field.
Qed.





End OttoSpec.

(** ** Properties of [approximate_rankine] *)

Module RankineSpec.
Import Rankine RankineFacts.

Open Scope Q_scope.

(** The three efficiencies of the sweep, as fractions in lowest terms:
    about 0.24913, 0.24884 and 0.24855. *)
Lemma efficiencies_values :
  exists e1 e2 e3, efficiencies = Ok [e1; e2; e3] /\
    e1 == 12659 # 50813 /\ e2 == 12689 # 50993 /\ e3 == 12719 # 51173.
Proof.
  do 3 eexists. split; [vm_compute; reflexivity |].
  repeat split; reflexivity.
Qed.

(** C2, as written, fails: the swept efficiencies are not increasing. *)
Lemma rankine_sweep_not_increasing :
  ~ (exists effs, efficiencies = Ok effs /\ increasing effs).
Proof.
  intros (effs & Heffs & Hinc).
  destruct efficiencies_values as (e1 & e2 & e3 & Hv & H1 & H2 & H3).
  rewrite Hv in Heffs. injection Heffs as <-.
  destruct Hinc as [H12 _].
  rewrite H1, H2 in H12. vm_compute in H12. discriminate H12.
Qed.

(** C2, amended.  The efficiencies returned for P_high = 3000, 4000 and
    5000 kPa form a strictly decreasing sequence:
    efficiency(3000) > efficiency(4000) > efficiency(5000). *)
Theorem rankine_sweep_decreasing :
  exists effs, efficiencies = Ok effs /\ length effs = 3%nat /\ decreasing effs.
Proof.
  destruct efficiencies_values as (e1 & e2 & e3 & Hv & H1 & H2 & H3).
  exists [e1; e2; e3]. split; [exact Hv |]. split; [reflexivity |].
  cbn [decreasing]. rewrite H1, H2, H3.
  repeat split.
Qed.



End RankineSpec.

(** ** Further properties of [otto_cycle]: inputs that always raise *)

Module OttoErrors.
Import Otto OttoFacts.

Open Scope R_scope.

Lemma fdiv_cases (x y : R) :
  fdiv x y = ZeroDivisionError \/ (y <> 0 /\ fdiv x y = Ok (x / y)).
Proof.
  destruct (Req_dec_T y 0) as [E | N].
  - left. apply fdiv_zero. exact E.
  - right. split; [exact N | apply fdiv_ok; exact N].
Qed.

Lemma fpow_zero_pos (y : R) : 0 < y -> fpow 0 y = Ok 0.
Proof.
  intros Hy. unfold fpow.
  destruct (total_order_T 0 0) as [[Hlt | _] | Hgt]; [exfalso; lra | | exfalso; lra].
  destruct (total_order_T y 0) as [[Hlt | Heq] | _];
    [exfalso; lra | exfalso; lra | reflexivity].
Qed.

Lemma fpow_zero_neg (y : R) : y < 0 -> fpow 0 y = ZeroDivisionError.
Proof.
  intros Hy. unfold fpow.
  destruct (total_order_T 0 0) as [[Hlt | _] | Hgt]; [exfalso; lra | | exfalso; lra].
  destruct (total_order_T y 0) as [[_ | Heq] | Hgt];
    [reflexivity | exfalso; lra | exfalso; lra].
Qed.

(** X3.  Two inputs raise ZeroDivisionError whatever the others are:
    gamma = 1 (at Cv = R / (gamma - 1)) and r = 0 (at [0 ** (gamma - 1)] for
    gamma < 1, at T3 / T2 with T2 = 0 for gamma > 1). *)
Theorem otto_cycle_gamma_1_or_r_0 (T1 P1 r T3 gamma : R) :
  otto_cycle T1 P1 r T3 1 = ZeroDivisionError /\
  otto_cycle T1 P1 0 T3 gamma = ZeroDivisionError.
Proof.
  split.
  - unfold otto_cycle. rewrite fdiv_zero by ring. reflexivity.
  - unfold otto_cycle.
    destruct (fdiv_cases R_air (gamma - 1)) as [E | [N E]]; rewrite E; cbn [bind];
      [reflexivity |].
    destruct (Rlt_le_dec gamma 1) as [Hlt | Hge].
    + rewrite (fpow_zero_neg (gamma - 1)) by lra. reflexivity.
    + rewrite (fpow_zero_pos (gamma - 1)) by lra. cbn [bind].
      rewrite (fpow_zero_pos gamma) by lra. cbn [bind].
      rewrite (fdiv_zero T3) by ring. reflexivity.
Qed.

End OttoErrors.

(** ** Further properties of [otto_cycle]: relations between the outputs *)

Module OttoRelations.
Import Otto OttoFacts.

Open Scope R_scope.



End OttoRelations.

(** ** The sweeps over the compression ratio (lines 63-99 of [q1.py]) *)

Module OttoSweep.
Import Otto OttoFacts.

Open Scope R_scope.

(** The values of a call of the script in terms of p = r^0.4 and 1 / p. *)
Lemma sweep_factor (r : R) :
  3 <= r <= 12 ->
  1.55 < Rpower r (7 / 5 - 1) < 2.71 /\
  Rpower r (1 - 7 / 5) = / Rpower r (7 / 5 - 1) /\
  Rpower r (7 / 5) = r * Rpower r (7 / 5 - 1).
Proof.
  intros Hr. repeat split.
  - replace (7 / 5 - 1) with (2 / 5) by lra. apply Rpower_two_fifths_sweep, Hr.
  - replace (7 / 5 - 1) with (2 / 5) by lra. apply Rpower_two_fifths_sweep, Hr.
  - apply Rpower_one_minus.
  - apply Rpower_split. lra.
Qed.

(** X5.  On the calls of the script (defaults, 3 <= r <= 12) the state
    points are ordered: T1 < T2 < T4 < T3 for the temperatures and
    P1 < P2 < P4 < P3 for the pressures. *)
Theorem otto_sweep_state_order (r : R) :
  3 <= r <= 12 ->
  exists res,
    otto_cycle 300.0 101325.0 r upper_temp_lim 1.4 = Ok res /\
    let s := states res in
    300 < T2 s /\ T2 s < T4 s /\ T4 s < 2400 /\
    101325 < P2 s /\ P2 s < P4 s /\ P4 s < P3 s.
Proof.
  intros Hr.
  exists (otto_values 300 101325 r 2400 (7 / 5)).
  split; [apply sweep_call_ok; exact Hr |].
  destruct (sweep_factor r Hr) as ([Hlo Hhi] & Hinv & Hsplit).
  cbv zeta. unfold otto_values. cbn [states T2 T4 P2 P3 P4].
  rewrite Hinv, Hsplit.
  set (p := Rpower r (7 / 5 - 1)) in *.
  assert (Hpip : p * / p = 1) by (apply Rinv_r; lra).
  assert (Hip : 0 < / p) by (apply Rinv_0_lt_compat; lra).
  assert (HT4 : 2400 * / p / 2400 = / p) by (field; lra).
  assert (HT32 : 2400 / (300 * p) = 8 * / p) by (field; lra).
  rewrite HT4, HT32.
  set (ip := / p) in *.
  assert (Hip_lo : 0.36 < ip) by nra.
  assert (Hip_hi : ip < 0.65) by nra.
  assert (Hpp : p * ip * p = p) by (rewrite Hpip; ring).
  assert (Hsq : 8 * ip < 8 /\ p < 8 * ip) by (split; nra).
  destruct Hsq as [Hsq1 Hsq2].
  assert (HP2 : 4 * 101325 < 101325 * (r * p)) by nra.
  set (P2v := 101325 * (r * p)) in *.
  repeat split; try nra.
  - (* P2 < P4 : P4 = P2 * 8 * ip * ip and 8 * ip * ip > 1 *)
    assert (1 < 8 * ip * ip) by nra.
    replace (P2v * (8 * ip) * ip) with (P2v * (8 * ip * ip)) by ring. nra.
  - (* P4 < P3 *)
    assert (0 < P2v * (8 * ip)) by nra. nra.
Qed.

Lemma otto_sweep_state_order_witness :
  3 <= 6 <= 12 /\
  exists res,
    otto_cycle 300.0 101325.0 6 upper_temp_lim 1.4 = Ok res /\
    let s := states res in
    300 < T2 s /\ T2 s < T4 s /\ T4 s < 2400 /\
    101325 < P2 s /\ P2 s < P4 s /\ P4 s < P3 s.
Proof.
  split; [lra |].
  apply (otto_sweep_state_order 6). lra.
Defined.

(** X10.  With every other argument at its default, every compression ratio
    of the plotted range, 3 <= r <= 12, gives a result (the sweeps of lines
    63-99 raise nothing), with T2 below 900 K, a positive mep and an
    efficiency eta between 0.35 and 0.64. *)
Theorem otto_sweep_calls (r : R) :
  3 <= r <= 12 ->
  exists res,
    otto_cycle 300.0 101325.0 r upper_temp_lim 1.4 = Ok res /\
    T2 (states res) < 900 /\ 0 < mep res /\
    0.35 < eta res /\ eta res < 0.64.
Proof.
  intros Hr.
  exists (otto_values 300 101325 r 2400 (7 / 5)).
  split; [apply sweep_call_ok; exact Hr |].
  destruct (sweep_factor r Hr) as ([Hlo Hhi] & Hinv & Hsplit).
  pose proof (sweep_regular r Hr) as Hreg.
  rewrite (eta_closed _ _ _ _ _ Hreg).
  split; [| split].
  - unfold otto_values. cbn [states T2]. lra.
  - unfold otto_values. cbn [mep]. rewrite Hinv, R_air_value.
    set (p := Rpower r (7 / 5 - 1)) in *.
    assert (Hpip : p * / p = 1) by (apply Rinv_r; lra).
    assert (Hip : 0 < / p) by (apply Rinv_0_lt_compat; lra).
    set (ip := / p) in *.
    assert (Hip_hi : ip < 0.65) by nra.
    apply Rdiv_lt_0_compat.
    + assert (HCv : 0 < 287 / (7 / 5 - 1)) by (apply Rdiv_lt_0_compat; lra).
      set (Cv := 287 / (7 / 5 - 1)) in *.
      assert (0 < (2400 - 300 * p) - (2400 * ip - 300)) by nra.
      nra.
    + replace (287 * 300 / 101325 - 287 * 300 / 101325 / r)
        with (287 * 300 * (r - 1) / (101325 * r)) by (field; lra).
      apply Rdiv_lt_0_compat; nra.
  - set (p := Rpower r (7 / 5 - 1)) in *.
    assert (Hpip : p * / p = 1) by (apply Rinv_r; lra).
    assert (Hip : 0 < / p) by (apply Rinv_0_lt_compat; lra).
    set (ip := / p) in *.
    split; nra.
Qed.

Lemma otto_sweep_calls_witness :
  3 <= 6 <= 12 /\
  exists res,
    otto_cycle 300.0 101325.0 6 upper_temp_lim 1.4 = Ok res /\
    T2 (states res) < 900 /\ 0 < mep res /\
    0.35 < eta res /\ eta res < 0.64.
Proof.
  split; [lra |].
  apply (otto_sweep_calls 6). lra.
Defined.

End OttoSweep.

(** ** Further properties of [approximate_rankine] *)

Module RankineValues.
Import Rankine RankineFacts.

Open Scope Q_scope.

(** X13.  The net power of every returned tuple is linear in the pressure,
    net_power = 30165.6 + 0.072 * P_high_kPa (kW), hence strictly
    increasing: a higher boiler pressure gives more power at a lower
    efficiency. *)
Theorem rankine_net_power_linear (P_high_kPa e w : Q) (st : Enthalpies) :
  approximate_rankine P_high_kPa = Ok (e, w, st) ->
  w == 30165.6 + 0.072 * P_high_kPa.
Proof.
  destruct st as [[[h1 h2] h3] h4]. intros H.
  apply approximate_rankine_inv in H as (_ & _ & -> & _).
  rewrite net_work_closed. unfold mass_flowrate. ring.
Qed.

Lemma rankine_net_power_linear_witness :
  exists e w st,
    approximate_rankine 3000 = Ok (e, w, st) /\ w == 30165.6 + 0.072 * 3000.
Proof.
  destruct (approximate_rankine_ok 3000) as [st Hst]; [discriminate |].
  do 3 eexists. split; [exact Hst |].
  exact (rankine_net_power_linear 3000 _ _ _ Hst).
Defined.

(** X12.  Between 0 and 100000 kPa, a boiler pressure at least 1 kPa above
    another gives a strictly lower efficiency. *)
Theorem rankine_efficiency_decreasing_by_kPa (Pa Pb : Q) :
  0 <= Pa -> Pa + 1 <= Pb -> Pb <= 100000 ->
  exists ea wa sa eb wb sb,
    approximate_rankine Pa = Ok (ea, wa, sa) /\
    approximate_rankine Pb = Ok (eb, wb, sb) /\
    eb < ea.
Proof.
  intros Ha Hab _.
  destruct (approximate_rankine_ok Pa) as [sa Hsa].
  { pose proof (heat_added_pos Pa Ha) as H. intros E. rewrite E in H. discriminate H. }
  destruct (approximate_rankine_ok Pb) as [sb Hsb].
  { assert (Hb : 0 <= Pb) by lra.
    pose proof (heat_added_pos Pb Hb) as H. intros E. rewrite E in H. discriminate H. }
  do 6 eexists. split; [exact Hsa |]. split; [exact Hsb |].
  apply efficiency_antitone; lra.
Qed.

Lemma rankine_efficiency_decreasing_by_kPa_witness :
  (0 <= 3000 /\ 3000 + 1 <= 4000 /\ 4000 <= 100000) /\
  exists ea wa sa eb wb sb,
    approximate_rankine 3000 = Ok (ea, wa, sa) /\
    approximate_rankine 4000 = Ok (eb, wb, sb) /\
    eb < ea.
Proof.
  split; [repeat split; discriminate |].
  apply (rankine_efficiency_decreasing_by_kPa 3000 4000); discriminate.
Defined.

(** X14.  Over the boiler range 1000 to 10000 kPa the efficiency stays
    between 0.2471 and 0.2498. *)
Theorem rankine_efficiency_boiler_range (P_high_kPa : Q) :
  1000 <= P_high_kPa -> P_high_kPa <= 10000 ->
  exists e w st,
    approximate_rankine P_high_kPa = Ok (e, w, st) /\
    0.2471 < e /\ e < 0.2498.
Proof.
  intros Hlo Hhi.
  assert (H0 : 0 <= P_high_kPa) by lra.
  pose proof (heat_added_pos P_high_kPa H0) as Hheat.
  destruct (approximate_rankine_ok P_high_kPa) as [st Hst].
  { intros E. rewrite E in Hheat. discriminate Hheat. }
  do 3 eexists. split; [exact Hst |]. split.
  - apply Qlt_shift_div_l; [exact Hheat |].
    rewrite net_work_closed, heat_added_closed. lra.
  - apply Qlt_shift_div_r; [exact Hheat |].
    rewrite net_work_closed, heat_added_closed. lra.
Qed.

Lemma rankine_efficiency_boiler_range_witness :
  (1000 <= 3000 /\ 3000 <= 10000) /\
  exists e w st,
    approximate_rankine 3000 = Ok (e, w, st) /\
    0.2471 < e /\ e < 0.2498.
Proof.
  split; [split; discriminate |].
  apply (rankine_efficiency_boiler_range 3000); discriminate.
Defined.



End RankineValues.

(** ** The sweep over the boiler pressure (lines 44-50 of [q2.py]) *)

Module RankineSweep.
Import Rankine RankineFacts RankineValues.

Open Scope Q_scope.

(** Efficiency and net power of one pressure, as the call computes them. *)
Abbreviation eff_of := (fun P : Q => net_work_of P / heat_added_of P).
Abbreviation power_of := (fun P : Q => net_work_of P * mass_flowrate).

Lemma approximate_rankine_nonneg (P : Q) :
  0 <= P -> exists st, approximate_rankine P = Ok (eff_of P, power_of P, st).
Proof.
  intros HP. apply approximate_rankine_ok.
  pose proof (heat_added_pos P HP) as H. intros E. rewrite E in H. discriminate H.
Qed.

(** The loop appends one efficiency and one power per pressure, in order. *)
Lemma sweep_nonneg (ps es ws : list Q) :
  Forall (fun P => 0 <= P) ps ->
  sweep ps es ws = Ok (es ++ map eff_of ps, ws ++ map power_of ps).
Proof.
  revert es ws. induction ps as [| P ps IH]; intros es ws Hall.
  - cbn. rewrite !app_nil_r. reflexivity.
  - inversion Hall as [| ? ? HP Hps]; subst.
    destruct (approximate_rankine_nonneg P HP) as [st Hst].
    cbn [sweep]. rewrite Hst. cbn [bind].
    rewrite (IH _ _ Hps). cbn [map]. rewrite <- !app_assoc. reflexivity.
Qed.

Lemma eff_of_decreasing (ps : list Q) :
  Forall (fun P => 0 <= P) ps -> increasing ps -> decreasing (map eff_of ps).
Proof.
  induction ps as [| x ps IH]; intros Hall Hinc; [exact I |].
  destruct ps as [| y tl]; [exact I |].
  inversion Hall as [| ? ? Hx Hrest]; subst.
  destruct Hinc as [Hxy Hinc].
  split.
  - apply efficiency_antitone; assumption.
  - apply IH; assumption.
Qed.

Lemma power_of_increasing (ps : list Q) :
  increasing ps -> increasing (map power_of ps).
Proof.
  induction ps as [| x ps IH]; intros Hinc; [exact I |].
  destruct ps as [| y tl]; [exact I |].
  destruct Hinc as [Hxy Hinc].
  split.
  - cbv beta. rewrite !net_work_closed. unfold mass_flowrate. lra.
  - apply IH; assumption.
Qed.



Lemma spaced_increasing (ps : list Q) : spaced ps -> increasing ps.
Proof.
  induction ps as [| x ps IH]; intros Hs; [exact I |].
  destruct ps as [| y tl]; [exact I |].
  destruct Hs as [Hxy Hs]. split; [lra | apply IH; exact Hs].
Qed.

(** X19.  Over a list of pressures between 0 and 100000 kPa in which each
    is at least 1 kPa above the one before, the loop produces strictly
    decreasing efficiencies and strictly increasing net powers, as many of
    each as there are pressures. *)
Theorem rankine_sweep_monotone_spaced (ps : list Q) :
  Forall (fun P => 0 <= P /\ P <= 100000) ps -> spaced ps ->
  exists effs pows,
    sweep ps [] [] = Ok (effs, pows) /\
    length effs = length ps /\ length pows = length ps /\
    decreasing effs /\ increasing pows.
Proof.
  intros Hall Hsp.
  assert (Hnn : Forall (fun P => 0 <= P) ps).
  { apply Forall_impl with (2 := Hall). intros P [H0 _]. exact H0. }
  pose proof (spaced_increasing ps Hsp) as Hinc.
  exists (map eff_of ps), (map power_of ps).
  split; [exact (sweep_nonneg ps [] [] Hnn) |].
  split; [apply length_map |]. split; [apply length_map |].
  split.
  - apply eff_of_decreasing; assumption.
  - apply power_of_increasing; assumption.
Qed.

Lemma rankine_sweep_monotone_spaced_witness :
  (Forall (fun P => 0 <= P /\ P <= 100000) P_high_list /\ spaced P_high_list) /\
  exists effs pows,
    sweep P_high_list [] [] = Ok (effs, pows) /\
    length effs = length P_high_list /\ length pows = length P_high_list /\
    decreasing effs /\ increasing pows.
Proof.
  assert (H : Forall (fun P => 0 <= P /\ P <= 100000) P_high_list)
    by (repeat constructor; discriminate).
  assert (Hs : spaced P_high_list) by (repeat split; discriminate).
  split; [split; assumption |].
  exact (rankine_sweep_monotone_spaced P_high_list H Hs).
Defined.

End RankineSweep.

(** ** [otto_cycle] in binary64 *)

Module OttoBinary64.
Import Otto64.

Open Scope float_scope.

(** The default call in binary64: T2 = 614.3017533237656 and both
    efficiencies 0.5116406580694131. *)
Example default_call_binary64 :
  exists res,
    otto_cycle libm_pow_samples 300 101325 6 upper_temp_lim 1.4 = Return res /\
    T2 (states res) = 614.3017533237656 /\
    P2 (states res) = 1244882.503110611 /\
    eta res = 0.5116406580694131 /\
    eta_theory res = 0.5116406580694131.
Proof.
  eexists. split; [vm_compute; reflexivity |].
  repeat split; vm_compute; reflexivity.
Qed.

(** With T3 = 614.3017533237658, one step above the computed T2, the call
    returns eta = 1.0 (q_out is 0.0) beside eta_theory = 0.5116406580694131. *)
Lemma cancellation_call :
  exists res,
    otto_cycle libm_pow_samples 300 101325 6 614.3017533237658 1.4 = Return res /\
    (T2 (states res) <? 614.3017533237658) = true /\
    q_out res = 0 /\ eta res = 1 /\ eta_theory res = 0.5116406580694131.
Proof.
  eexists. split; [vm_compute; reflexivity |].
  repeat split; vm_compute; reflexivity.
Qed.




(** A call that returns computed [eta_theory] by line 36. *)
Lemma otto_cycle_eta_theory_binary64 (libm_pow : float -> float -> float)
    (T1 P1 r T3 gamma : float) (res : OttoResult) :
  otto_cycle libm_pow T1 P1 r T3 gamma = Return res ->
  eta_theory_expr libm_pow r gamma = Return (eta_theory res).
Proof.
  unfold otto_cycle.
  repeat match goal with
         | |- bind ?m _ = Return _ -> _ =>
             destruct m; cbn [bind]; try discriminate
         end.
  intros H. injection H as <-. reflexivity.
Qed.

(** X20.  In binary64, whatever the C library's pow returns: at r = 1.0 the
    expression of eta_theory evaluates to 0.0 with no error, for every
    gamma; and gamma = 1.0 makes the call raise ZeroDivisionError, at
    Cv = R / (gamma - 1), for every other argument. *)
Theorem boundary_inputs_binary64
    (libm_pow : float -> float -> float) (T1 P1 r T3 gamma : float) :
  eta_theory_expr libm_pow 1 gamma = Return 0 /\
  otto_cycle libm_pow T1 P1 r T3 1 = RaiseZeroDivisionError.
Proof.
  split.
  - unfold eta_theory_expr, fpow.
    destruct (gamma - 1 =? 0); reflexivity.
  - reflexivity.
Qed.

(** X21.  In binary64, whatever the C library's pow returns: two calls with
    the same r and gamma that return, return the same eta_theory, whatever
    T1, P1 and T3 each was given. *)
Theorem eta_theory_noninterference_binary64
    (libm_pow : float -> float -> float)
    (T1 P1 T3 T1' P1' T3' r gamma : float) (res res' : OttoResult) :
  otto_cycle libm_pow T1 P1 r T3 gamma = Return res ->
  otto_cycle libm_pow T1' P1' r T3' gamma = Return res' ->
  eta_theory res = eta_theory res'.
Proof.
  intros H H'.
  apply otto_cycle_eta_theory_binary64 in H.
  apply otto_cycle_eta_theory_binary64 in H'.
  rewrite H in H'. injection H' as E. exact E.
Qed.

Lemma eta_theory_noninterference_binary64_witness :
  exists res res',
    otto_cycle libm_pow_samples 300 101325 6 upper_temp_lim 1.4 = Return res /\
    otto_cycle libm_pow_samples 300 101325 6 614.3017533237658 1.4 = Return res' /\
    eta_theory res = eta_theory res'.
Proof.
  destruct default_call_binary64 as (res & Hres & _).
  destruct cancellation_call as (res' & Hres' & _).
  exists res, res'. split; [exact Hres |]. split; [exact Hres' |].
  exact (eta_theory_noninterference_binary64 libm_pow_samples
           _ _ _ _ _ _ _ _ _ _ Hres Hres').
Defined.

End OttoBinary64.

(** ** [approximate_rankine] in binary64 *)

Module RankineBinary64.
Import Rankine64.

Open Scope float_scope.

(** The three efficiencies of the sweep in binary64. *)
Example sweep_binary64 :
  map efficiency_in_bounds P_high_list = [true; true; true] /\
  exists w1 s1 w2 s2 w3 s3,
    approximate_rankine 3000 = Ok (0.24912915986066558, w1, s1) /\
    approximate_rankine 4000 = Ok (0.24883807581432746, w2, s2) /\
    approximate_rankine 5000 = Ok (0.24854903953256602, w3, s3).
Proof.
  split; [vm_compute; reflexivity |].
  do 6 eexists. repeat split; vm_compute; reflexivity.
Qed.



(** X22.  In binary64, for every whole number of kPa from 51 to 1050, the
    thousand pressures next above P_low, the call returns an efficiency
    strictly between 0 and 0.25. *)
Theorem whole_pressures_in_bounds (P_high_kPa : float) :
  In P_high_kPa (whole_pressures 51 1000) ->
  efficiency_in_bounds P_high_kPa = true.
Proof.
  intros Hin.
  assert (Hall : forallb efficiency_in_bounds (whole_pressures 51 1000) = true)
    by (vm_compute; reflexivity).
  rewrite forallb_forall in Hall. apply Hall. exact Hin.
Qed.

Lemma whole_pressures_in_bounds_witness :
  In 51 (whole_pressures 51 1000) /\ efficiency_in_bounds 51 = true.
Proof.
  assert (Hin : In 51 (whole_pressures 51 1000)) by (left; reflexivity).
  split; [exact Hin |].
  exact (whole_pressures_in_bounds 51 Hin).
Defined.

End RankineBinary64.
